(** * Link press resolution ([src/components/Link.tsx])

    A shallow embedding of the [useLink] hook, of the [Link] and [InlineLink]
    components that call it, and of the press handler [onPress] that the hook
    builds.  The handler is effectful JavaScript: it calls the caller's
    callback, the event's [preventDefault], the modal controls, the platform
    URL opener and the navigation dispatcher, and it may throw.  Those calls
    are recorded, in order, in a trace; a thrown error ends the run. *)

From Stdlib Require Import String Ascii List ZArith Bool Lia.
Import ListNotations.
Open Scope string_scope.
Open Scope list_scope.

(** ** JavaScript values and truthiness *)

(** The values a press callback of type [(e) => void | false] can hand back
    at run time. *)
Inductive JsValue : Type :=
| JUndefined
| JNull
| JBool (b : bool)
| JNum (n : Z)
| JStr (s : string).

(** [v === false] *)
Definition strict_eq_false (v : JsValue) : bool :=
  match v with
  | JBool false => true
  | _ => false
  end.

(** Truthiness of an optional boolean ([undefined] is falsy). *)
Definition truthy_bool (b : option bool) : bool :=
  match b with
  | Some true => true
  | _ => false
  end.

(** Truthiness of a string (the empty string is falsy). *)
Definition truthy_string (s : string) : bool :=
  match s with
  | EmptyString => false
  | String _ _ => true
  end.

(** Truthiness of an optional string ([undefined] and [''] are falsy). *)
Definition truthy_opt_string (s : option string) : bool :=
  match s with
  | Some s' => truthy_string s'
  | None => false
  end.

(** [s.startsWith(p)] *)
Definition startsWith (s p : string) : bool := String.prefix p s.

(** ** Events, routes and effects *)

(** The fields of the press event that the handler reads after casting it to
    [any].  A native gesture event carries none of them ([None]). *)
Record PressEvent : Type := mkPressEvent {
  button : option Z;
  metaKey : option bool;
  altKey : option bool;
  ctrlKey : option bool;
  shiftKey : option bool
}.

(** [event.button === 1] *)
Definition button_is_1 (e : PressEvent) : bool :=
  match button e with
  | Some b => (b =? 1)%Z
  | None => false
  end.

(** What [router.matchPath] returns: a screen name and its params. *)
Definition Route : Type := (string * list (string * string))%type.

(** The calls the handler makes on its collaborators. *)
Inductive Effect : Type :=
| PreventDefault                              (* e.preventDefault() *)
| OpenModal (name text href : string)         (* openModal({name, text, href}) *)
| CloseModal                                  (* closeModal() *)
| LinkingOpenURL (url : string)               (* Linking.openURL(url) *)
| DispatchPush (r : Route)                    (* navigation.dispatch(StackActions.push(...r)) *)
| DispatchReplace (r : Route)                 (* navigation.dispatch(StackActions.replace(...r)) *)
| NavigationNavigate (r : Route)              (* navigation.navigate(...r) *)
| CallerEffect (tag : string).                (* anything else a caller's callback does *)

Definition isPreventDefault (x : Effect) : bool :=
  match x with PreventDefault => true | _ => false end.

Definition isOpenModal (x : Effect) : bool :=
  match x with OpenModal _ _ _ => true | _ => false end.

Definition isOpenURL (x : Effect) : bool :=
  match x with LinkingOpenURL _ => true | _ => false end.

Definition isNavigation (x : Effect) : bool :=
  match x with
  | DispatchPush _ | DispatchReplace _ | NavigationNavigate _ => true
  | _ => false
  end.

(** ** The trace-and-throw monad *)

Inductive Completion (A : Type) : Type :=
| Normal (a : A)
| Throw (msg : string).
Arguments Normal {A} a.
Arguments Throw {A} msg.

Definition M (A : Type) : Type := (list Effect * Completion A)%type.

Definition ret {A} (a : A) : M A := ([], Normal a).

Definition bind {A B} (m : M A) (f : A -> M B) : M B :=
  match m with
  | (t, Normal a) => let (t', r) := f a in (t ++ t', r)
  | (t, Throw msg) => (t, Throw msg)
  end.

Definition emit (x : Effect) : M unit := ([x], Normal tt).

Definition throwError {A} (msg : string) : M A := ([], Throw msg).

Notation "x <- m ;; k" := (bind m (fun x => k))
  (at level 61, m at next level, right associativity).
Notation "m ;; k" := (bind m (fun _ => k))
  (at level 61, right associativity).

Definition trace {A} (m : M A) : list Effect := fst m.
Definition completion {A} (m : M A) : Completion A := snd m.

(** ** Props *)

(** The [to] prop: a string, or a route descriptor object. *)
Inductive LinkTo : Type :=
| ToString (s : string)
| ToObject (screen : string) (params : list (string * string)).

(** The argument of [useLink]: [BaseLinkProps & {displayText}] restricted to
    the fields the hook destructures.  [action] is a JavaScript string at
    run time; [None] is [undefined]. *)
Record UseLinkArgs : Type := mkUseLinkArgs {
  to : LinkTo;
  displayText : string;
  action : option string;
  warnOnMismatchingTextChild : option bool;
  outerOnPress : option (PressEvent -> M JsValue)
}.

(** React children, as far as [typeof children === 'string'] can tell them
    apart. *)
Inductive ReactNode : Type :=
| NodeString (s : string)
| NodeNumber (n : Z)
| NodeElement (name : string)
| NodeNull.

(** [typeof children === 'string' ? children : ''] *)
Definition stringChildrenOrEmpty (children : ReactNode) : string :=
  match children with
  | NodeString s => s
  | _ => ""
  end.

(** [LinkProps]: [BaseLinkProps] without [warnOnMismatchingTextChild]. *)
Record LinkProps : Type := mkLinkProps {
  link_children : ReactNode;
  link_to : LinkTo;
  link_action : option string;
  link_onPress : option (PressEvent -> M JsValue);
  link_download : option string
}.

(** [InlineLinkProps] *)
Record InlineLinkProps : Type := mkInlineLinkProps {
  inline_children : ReactNode;
  inline_to : LinkTo;
  inline_action : option string;
  inline_warnOnMismatchingTextChild : option bool;
  inline_onPress : option (PressEvent -> M JsValue);
  inline_download : option string
}.

(** The [hrefAttrs] object of lines 203-207 and 280-284. *)
Record HrefAttrs : Type := mkHrefAttrs {
  attr_target : option string;
  attr_rel : option string;
  attr_download : option string
}.

(** The props that the components pass inside [web({...})]. *)
Record WebProps : Type := mkWebProps {
  hrefAttrs : HrefAttrs;
  dataSet_noUnderline : string
}.

(** What the rendered element receives from the component, as far as a press
    and the anchor attributes are concerned.  [r_web] is what the spread of
    [web({...})] contributes: nothing ([None]) when [web] yields
    [undefined]. *)
Record Rendered : Type := mkRendered {
  r_href : string;
  r_onPress : option (PressEvent -> M unit);
  r_web : option WebProps
}.

(** The anchor attributes the element ends up with. *)
Definition r_target (r : Rendered) : option string :=
  match r_web r with
  | Some w => attr_target (hrefAttrs w)
  | None => None
  end.

Definition r_rel (r : Rendered) : option string :=
  match r_web r with
  | Some w => attr_rel (hrefAttrs w)
  | None => None
  end.

Definition r_download (r : Rendered) : option string :=
  match r_web r with
  | Some w => attr_download (hrefAttrs w)
  | None => None
  end.

(** A press delivered to a rendered element: the attached handler runs, and
    nothing runs when none is attached. *)
Definition press (r : Rendered) (e : PressEvent) : M unit :=
  match r_onPress r with
  | Some handler => handler e
  | None => ret tt
  end.

(** ** Collaborators

    What [Link.tsx] imports and calls but does not define. *)
Class Collaborators : Type := {
  (** [isWeb] of [#/platform/detection] *)
  isWeb : bool;
  (** [sanitizeUrl] of [@braintree/sanitize-url] *)
  sanitizeUrl : string -> string;
  (** [convertBskyAppUrlIfNeeded], [isExternalUrl] and [linkRequiresWarning]
      of [#/lib/strings/url-helpers] *)
  convertBskyAppUrlIfNeeded : string -> string;
  isExternalUrl : string -> bool;
  linkRequiresWarning : string -> string -> bool;
  (** the [href] that [useLinkProps] of React Navigation computes *)
  useLinkProps : LinkTo -> string;
  (** [router.matchPath] of [#/routes] *)
  matchPath : string -> Route
}.

(** ** The hook *)

Section UseLink.

Context {C : Collaborators}.

(** Line 79: [convertBskyAppUrlIfNeeded(sanitizeUrl(to))]. *)
Definition normalizeTo (s : string) : string :=
  convertBskyAppUrlIfNeeded (sanitizeUrl s).

(** Lines 77-80. *)
Definition useLink_href (p : UseLinkArgs) : string :=
  useLinkProps
    match to p with
    | ToString s => ToString (normalizeTo s)
    | ToObject screen params => ToObject screen params
    end.

(** Line 81. *)
Definition useLink_isExternal (p : UseLinkArgs) : bool :=
  isExternalUrl (useLink_href p).

(** [action = 'push'] in the parameter list. *)
Definition actionOrDefault (p : UseLinkArgs) : string :=
  match action p with
  | Some a => a
  | None => "push"
  end.

(** Line 86: [outerOnPress?.(e)]. *)
Definition callOuterOnPress (p : UseLinkArgs) (e : PressEvent) : M JsValue :=
  match outerOnPress p with
  | Some f => f e
  | None => ret JUndefined
  end.

(** Lines 90-95. *)
Definition requiresWarning (p : UseLinkArgs) : bool :=
  truthy_bool (warnOnMismatchingTextChild p)
  && truthy_string (displayText p)
  && useLink_isExternal p
  && linkRequiresWarning (useLink_href p) (displayText p).

(** Lines 116-120. *)
Definition isMiddleClick (e : PressEvent) : bool :=
  isWeb && button_is_1 e.

Definition isMetaKey (e : PressEvent) : bool :=
  isWeb
  && (truthy_bool (metaKey e) || truthy_bool (altKey e)
      || truthy_bool (ctrlKey e) || truthy_bool (shiftKey e)).

Definition shouldOpenInNewTab (e : PressEvent) : bool :=
  isMetaKey e || isMiddleClick e.

(** Lines 131-142. *)
Definition dispatchAction (p : UseLinkArgs) : M unit :=
  let href := useLink_href p in
  if actionOrDefault p =? "push" then
    emit (DispatchPush (matchPath href))
  else if actionOrDefault p =? "replace" then
    emit (DispatchReplace (matchPath href))
  else if actionOrDefault p =? "navigate" then
    emit (NavigationNavigate (matchPath href))
  else
    throwError "Unsupported navigator action.".

(** Lines 88-145: the handler once the callback has returned
    [exitEarlyIfFalse]. *)
Definition afterCallback (p : UseLinkArgs) (e : PressEvent)
    (exitEarlyIfFalse : JsValue) : M unit :=
  let href := useLink_href p in
  let isExternal := useLink_isExternal p in
  if strict_eq_false exitEarlyIfFalse then ret tt
  else
    if requiresWarning p then
      emit PreventDefault ;;
      emit (OpenModal "link-warning" (displayText p) href)
    else
      emit PreventDefault ;;
      if isExternal then
        emit (LinkingOpenURL href)
      else
        if shouldOpenInNewTab e
           || startsWith href "http"
           || startsWith href "mailto"
        then
          emit (LinkingOpenURL href)
        else
          emit CloseModal ;;
          dispatchAction p.

(** Lines 84-146. *)
Definition onPress (p : UseLinkArgs) (e : PressEvent) : M unit :=
  exitEarlyIfFalse <- callOuterOnPress p e ;;
  afterCallback p e exitEarlyIfFalse.

(** Lines 160-164. *)
Record UseLinkResult : Type := mkUseLinkResult {
  res_isExternal : bool;
  res_href : string;
  res_onPress : PressEvent -> M unit
}.

Definition useLink (p : UseLinkArgs) : UseLinkResult :=
  {| res_isExternal := useLink_isExternal p;
     res_href := useLink_href p;
     res_onPress := onPress p |}.

(** ** The components *)

(** Lines 186-191. *)
Definition Link_useLinkArgs (props : LinkProps) : UseLinkArgs :=
  {| to := link_to props;
     displayText := stringChildrenOrEmpty (link_children props);
     action := Some match link_action props with
                    | Some a => a
                    | None => "push"
                    end;
     warnOnMismatchingTextChild := None;
     outerOnPress := link_onPress props |}.

(** Modelled from the spec: the [web] helper of [#/alf], which [Link.tsx]
    imports; on the web surface (the platform surface flag of section 6) it
    passes its argument on, elsewhere it yields [undefined]. *)
Definition web {A : Type} (value : A) : option A :=
  if isWeb then Some value else None.

(** [download ? undefined : isExternal ? 'blank' : undefined] *)
Definition hrefTarget (download : option string) (isExternal : bool)
  : option string :=
  if truthy_opt_string download then None
  else if isExternal then Some "blank" else None.

(** [isExternal ? 'noopener noreferrer' : undefined] *)
Definition hrefRel (isExternal : bool) : option string :=
  if isExternal then Some "noopener noreferrer" else None.

(** Lines 178-216. *)
Definition Link (props : LinkProps) : Rendered :=
  let r := useLink (Link_useLinkArgs props) in
  {| r_href := res_href r;
     r_onPress := if truthy_opt_string (link_download props) then None
                  else Some (res_onPress r);
     r_web :=
       web {| hrefAttrs :=
                {| attr_target :=
                     hrefTarget (link_download props) (res_isExternal r);
                   attr_rel := hrefRel (res_isExternal r);
                   attr_download := link_download props |};
              dataSet_noUnderline := "1" |} |}.

(** Lines 234-241. *)
Definition InlineLink_useLinkArgs (props : InlineLinkProps) : UseLinkArgs :=
  {| to := inline_to props;
     displayText := stringChildrenOrEmpty (inline_children props);
     action := Some match inline_action props with
                    | Some a => a
                    | None => "push"
                    end;
     warnOnMismatchingTextChild := inline_warnOnMismatchingTextChild props;
     outerOnPress := inline_onPress props |}.

(** Lines 222-293. *)
Definition InlineLink (props : InlineLinkProps) : Rendered :=
  let r := useLink (InlineLink_useLinkArgs props) in
  {| r_href := res_href r;
     r_onPress := if truthy_opt_string (inline_download props) then None
                  else Some (res_onPress r);
     r_web :=
       web {| hrefAttrs :=
                {| attr_target :=
                     hrefTarget (inline_download props) (res_isExternal r);
                   attr_rel := hrefRel (res_isExternal r);
                   attr_download := inline_download props |};
              dataSet_noUnderline := "1" |} |}.

End UseLink.

(** ** The outcomes of the specification

    The specification names four outcomes of a press and one flat condition
    for opening a link externally.  They are written here after its words,
    to be compared with the handler above. *)

Module Spec.

Inductive NavigationAction : Type := Push | Replace | Navigate.

Inductive PressOutcome : Type :=
| Cancelled
| Warn (text href : string)
| OpenExternal (href : string)
| NavigateTo (a : NavigationAction) (href : string).

(** "true only on pointer-capable surfaces when the event reports middle-click
    or any of meta/alt/ctrl/shift held" *)
Definition modifierClickDetected (pointerCapable : bool) (e : PressEvent)
  : bool :=
  pointerCapable
  && (button_is_1 e
      || truthy_bool (metaKey e) || truthy_bool (altKey e)
      || truthy_bool (ctrlKey e) || truthy_bool (shiftKey e)).

(** "isExternal OR modifierClickDetected OR href starts with http OR href
    starts with mailto" *)
Definition shouldOpenExternally (isExternal modifierClick : bool)
    (href : string) : bool :=
  isExternal || modifierClick
  || startsWith href "http" || startsWith href "mailto".

(** The action a run-time [action] string stands for, if any. *)
Definition actionOfString (a : string) : option NavigationAction :=
  if a =? "push" then Some Push
  else if a =? "replace" then Some Replace
  else if a =? "navigate" then Some Navigate
  else None.

(** The dispatcher call that performs an action on a matched route. *)
Definition navEffect (a : NavigationAction) (r : Route) : Effect :=
  match a with
  | Push => DispatchPush r
  | Replace => DispatchReplace r
  | Navigate => NavigationNavigate r
  end.

(** The calls by which the handler itself realises an outcome. *)
Definition outcomeEffects {C : Collaborators} (o : PressOutcome)
  : list Effect :=
  match o with
  | Cancelled => []
  | Warn text href => [PreventDefault; OpenModal "link-warning" text href]
  | OpenExternal href => [PreventDefault; LinkingOpenURL href]
  | NavigateTo a href =>
      [PreventDefault; CloseModal; navEffect a (matchPath href)]
  end.

End Spec.

(** The flat condition of the specification, at the hook's own values. *)
Definition flatShouldOpenExternally {C : Collaborators} (p : UseLinkArgs)
    (e : PressEvent) : bool :=
  Spec.shouldOpenExternally (useLink_isExternal p)
    (Spec.modifierClickDetected isWeb e) (useLink_href p).

(** The same arguments with no callback registered. *)
Definition withoutCallback (p : UseLinkArgs) : UseLinkArgs :=
  {| to := to p;
     displayText := displayText p;
     action := action p;
     warnOnMismatchingTextChild := warnOnMismatchingTextChild p;
     outerOnPress := None |}.

(** The number of [preventDefault] calls in a trace. *)
Definition countPreventDefault (t : list Effect) : nat :=
  length (filter isPreventDefault t).

(** [typeof children === 'string'] *)
Definition isStringChild (children : ReactNode) : bool :=
  match children with
  | NodeString _ => true
  | _ => false
  end.

(** ** The URL helpers, after the specification

    [#/lib/strings/url-helpers], [#/routes] and the sanitizer are not part of
    [Link.tsx].  The definitions below follow the specification's description
    of them (sections 4.1 to 4.5) and give the hook concrete collaborators to
    run against. *)

Module SpecModel.

Fixpoint dropString (n : nat) (s : string) : string :=
  match n, s with
  | O, _ => s
  | S _, EmptyString => EmptyString
  | S n', String _ s' => dropString n' s'
  end.

Fixpoint takeUntil (c : ascii) (s : string) : string :=
  match s with
  | EmptyString => EmptyString
  | String a s' => if Ascii.eqb a c then EmptyString
                   else String a (takeUntil c s')
  end.

Fixpoint containsChar (c : ascii) (s : string) : bool :=
  match s with
  | EmptyString => false
  | String a s' => Ascii.eqb a c || containsChar c s'
  end.

Definition lowerAscii (a : ascii) : ascii :=
  let n := nat_of_ascii a in
  if (65 <=? n)%nat && (n <=? 90)%nat then ascii_of_nat (n + 32) else a.

Fixpoint lowerString (s : string) : string :=
  match s with
  | EmptyString => EmptyString
  | String a s' => String (lowerAscii a) (lowerString s')
  end.

(** Modelled from the spec: the application's own origin, which the
    Normalizer recognises ("same logical origin expressed as a full URL");
    [convertBskyAppUrlIfNeeded] is named after it. *)
Definition bskyAppOrigin : string := "https://bsky.app".

Definition isHexDigit (a : ascii) : bool :=
  let n := nat_of_ascii a in
  ((48 <=? n)%nat && (n <=? 57)%nat)
  || ((65 <=? n)%nat && (n <=? 70)%nat)
  || ((97 <=? n)%nat && (n <=? 102)%nat).

(** A percent sign that two hexadecimal digits do not follow. *)
Fixpoint malformedPercent (s : string) : bool :=
  match s with
  | EmptyString => false
  | String c rest =>
      if Ascii.eqb c "%" then
        match rest with
        | String a (String b _) =>
            negb (isHexDigit a && isHexDigit b) || malformedPercent rest
        | _ => true
        end
      else malformedPercent rest
  end.

(** The schemes that must not be followed, whatever their case. *)
Definition disallowedScheme (url : string) : bool :=
  startsWith (lowerString url) "javascript:"
  || startsWith (lowerString url) "data:"
  || startsWith (lowerString url) "vbscript:".

(** Modelled from the spec: [sanitizeUrl] of sections 4.1 and 7, "strips
    unsafe/ill-formed URL constructs (e.g. disallowed schemes, malformed
    percent-encoding) producing a safe string"; "invalid input degrades to
    an empty or minimally-safe string", never an error. *)
Definition sanitizeUrl (url : string) : string :=
  if negb (truthy_string url) || disallowedScheme url || malformedPercent url
  then "about:blank"
  else url.

(** Modelled from the spec: [convertBskyAppUrlIfNeeded] of section 4.1, "if
    the result matches a recognized in-application URL pattern (same logical
    origin expressed as a full URL), rewrite it to the equivalent canonical
    relative path". *)
Definition convertBskyAppUrlIfNeeded (url : string) : string :=
  if startsWith url (bskyAppOrigin ++ "/")%string
  then dropString (String.length bskyAppOrigin) url
  else url.

(** Modelled from the spec: [isExternalUrl] of section 4.2, "true if the
    href's scheme/host is not a canonical internal deep-link form", the
    canonical internal form being a relative path. *)
Definition isExternalUrl (href : string) : bool :=
  negb (startsWith href "/").

Definition stripScheme (s : string) : string :=
  if startsWith s "https://" then dropString 8 s
  else if startsWith s "http://" then dropString 7 s
  else s.

(** "its apparent host (case-insensitive, ignoring scheme and trailing
    slash)" *)
Definition hostOf (s : string) : string :=
  lowerString (takeUntil "/" (stripScheme s)).

(** "looks like a destination reference (contains a recognizable domain
    shape)" *)
Definition looksLikeUrl (text : string) : bool :=
  containsChar "." text && negb (containsChar " " text).

(** Modelled from the spec: [linkRequiresWarning] of section 4.3, "a
    mismatch is flagged when the display text looks like a destination
    reference and that reference's host differs from the actual target
    host; if the display text is not URL-shaped, no mismatch is raised". *)
Definition linkRequiresWarning (href text : string) : bool :=
  looksLikeUrl text && negb (hostOf text =? hostOf href).

(** Modelled from the spec: the [href] of [useLinkProps], "always a
    normalized string even when the input was structured"; a string target
    is its own href. *)
Definition useLinkProps (target : LinkTo) : string :=
  match target with
  | ToString s => s
  | ToObject screen _ => ("/" ++ lowerString screen)%string
  end.

(** Modelled from the spec: [router.matchPath] of section 4.5, "given a
    canonical internal path, returns the screen identifier plus params";
    the profile route is the one the specification's example uses. *)
Definition matchPath (path : string) : Route :=
  if startsWith path "/profile/"
  then ("Profile", [("name", dropString 9 path)])
  else ("NotFound", []).

(** The collaborators on a web surface ([onWeb = true]) and on a native
    one. *)
Definition collaborators (onWeb : bool) : Collaborators :=
  Build_Collaborators onWeb sanitizeUrl convertBskyAppUrlIfNeeded
    isExternalUrl linkRequiresWarning useLinkProps matchPath.

End SpecModel.

(** The calls the handler makes itself, after those of the caller's
    callback: none when the callback throws. *)
Definition resolverTrace {C : Collaborators} (p : UseLinkArgs)
    (e : PressEvent) : list Effect :=
  match callOuterOnPress p e with
  | (_, Normal v) => trace (afterCallback p e v)
  | (_, Throw _) => []
  end.

(** ** Sample collaborators, presses and props *)

Definition webApp : Collaborators := SpecModel.collaborators true.

Definition nativeApp : Collaborators := SpecModel.collaborators false.

Definition plainPress : PressEvent :=
  {| button := Some 0%Z; metaKey := Some false; altKey := Some false;
     ctrlKey := Some false; shiftKey := Some false |}.

Definition metaPress : PressEvent :=
  {| button := Some 0%Z; metaKey := Some true; altKey := Some false;
     ctrlKey := Some false; shiftKey := Some false |}.

Definition nativePress : PressEvent :=
  {| button := None; metaKey := None; altKey := None;
     ctrlKey := None; shiftKey := None |}.

Definition profileArgs : UseLinkArgs :=
  {| to := ToString "/profile/alice";
     displayText := "alice";
     action := None;
     warnOnMismatchingTextChild := None;
     outerOnPress := None |}.

Definition mismatchArgs (warn : option bool) : UseLinkArgs :=
  {| to := ToString "https://other.com";
     displayText := "example.com";
     action := None;
     warnOnMismatchingTextChild := warn;
     outerOnPress := None |}.

(** A callback that prevents the default itself and returns [v]. *)
Definition returning (v : JsValue) : PressEvent -> M JsValue :=
  fun _ => emit PreventDefault ;; ret v.

Definition callbackArgs (v : JsValue) : UseLinkArgs :=
  {| to := ToString "/profile/alice";
     displayText := "alice";
     action := None;
     warnOnMismatchingTextChild := None;
     outerOnPress := Some (returning v) |}.

Definition sampleLink (download : option string) : LinkProps :=
  {| link_children := NodeString "example.com";
     link_to := ToString "/profile/alice";
     link_action := None;
     link_onPress := None;
     link_download := download |}.

Definition sampleInlineLink (children : ReactNode) (download : option string)
  : InlineLinkProps :=
  {| inline_children := children;
     inline_to := ToString "https://other.com";
     inline_action := None;
     inline_warnOnMismatchingTextChild := Some true;
     inline_onPress := None;
     inline_download := download |}.

(** A callback that throws. *)
Definition throwing : PressEvent -> M JsValue :=
  fun _ => emit (CallerEffect "log") ;; throwError "boom".

Definition actionArgs (a : string) : UseLinkArgs :=
  {| to := ToString "https://bsky.app/profile/alice";
     displayText := "";
     action := Some a;
     warnOnMismatchingTextChild := Some true;
     outerOnPress := None |}.

Definition badActionArgs : UseLinkArgs :=
  {| to := ToString "/profile/alice";
     displayText := "alice";
     action := Some "pop";
     warnOnMismatchingTextChild := None;
     outerOnPress := None |}.

(** ** Reading a run of the handler *)

Definition isCloseModal (x : Effect) : bool :=
  match x with CloseModal => true | _ => false end.

(** The calls that carry out a press: the warning modal, the external open
    and the three navigation calls. *)
Definition isOutcomeCall (x : Effect) : bool :=
  isOpenModal x || isOpenURL x || isNavigation x.

Definition countOutcomeCalls (t : list Effect) : nat :=
  length (filter isOutcomeCall t).

(** The tests of lines 108 and 122-126 taken together: the press ends in
    [Linking.openURL]. *)
Definition opensExternally {C : Collaborators} (p : UseLinkArgs)
    (e : PressEvent) : bool :=
  useLink_isExternal p
  || (shouldOpenInNewTab e
      || startsWith (useLink_href p) "http"
      || startsWith (useLink_href p) "mailto").

(** The handler gets as far as line 129: the callback did not return
    [false], no warning is required and the press does not open the URL. *)
Definition reachesDispatch {C : Collaborators} (p : UseLinkArgs)
    (e : PressEvent) (exitEarlyIfFalse : JsValue) : bool :=
  negb (strict_eq_false exitEarlyIfFalse)
  && negb (requiresWarning p)
  && negb (opensExternally p e).

(** The three values of [action] that lines 131-139 accept. *)
Definition supportedAction (a : string) : bool :=
  (a =? "push") || (a =? "replace") || (a =? "navigate").

(** The calls the handler can make for the arguments [p]: all of them carry
    the hook's own [href]. *)
Definition handlerCall {C : Collaborators} (p : UseLinkArgs) (x : Effect)
  : Prop :=
  x = PreventDefault
  \/ x = CloseModal
  \/ x = OpenModal "link-warning" (displayText p) (useLink_href p)
  \/ x = LinkingOpenURL (useLink_href p)
  \/ x = DispatchPush (matchPath (useLink_href p))
  \/ x = DispatchReplace (matchPath (useLink_href p))
  \/ x = NavigationNavigate (matchPath (useLink_href p)).

(** A callback that logs and returns nothing. *)
Definition logging : PressEvent -> M JsValue :=
  fun _ => emit (CallerEffect "log") ;; ret JUndefined.

Definition pairedLink (download : option string) : LinkProps :=
  {| link_children := NodeString "example.com";
     link_to := ToString "https://other.com";
     link_action := Some "replace";
     link_onPress := Some logging;
     link_download := download |}.

Definition pairedInlineLink (download : option string) : InlineLinkProps :=
  {| inline_children := NodeString "example.com";
     inline_to := ToString "https://other.com";
     inline_action := Some "replace";
     inline_warnOnMismatchingTextChild := Some false;
     inline_onPress := Some logging;
     inline_download := download |}.

(** * Properties *)

(** ** The monad *)

Lemma bind_normal {A B} (m : M A) (f : A -> M B) (t : list Effect) (a : A) :
  m = (t, Normal a) ->
  bind m f = (t ++ trace (f a), completion (f a)).
Proof.
  intros ->. unfold bind, trace, completion.
  destruct (f a) as [t' r]. reflexivity.
Qed.

Lemma bind_throw {A B} (m : M A) (f : A -> M B) (t : list Effect) msg :
  m = (t, Throw msg) ->
  bind m f = (t, Throw msg).
Proof. intros ->. reflexivity. Qed.

(** ** The handler, case by case *)

Section HandlerFacts.

Context {C : Collaborators}.

(** The handler's two modifier tests together are the specification's
    modifier click. *)
Lemma shouldOpenInNewTab_modifierClick (e : PressEvent) :
  shouldOpenInNewTab e = Spec.modifierClickDetected isWeb e.
Proof.
  unfold shouldOpenInNewTab, isMetaKey, isMiddleClick,
    Spec.modifierClickDetected.
  destruct isWeb, (button_is_1 e), (truthy_bool (metaKey e)),
    (truthy_bool (altKey e)), (truthy_bool (ctrlKey e)),
    (truthy_bool (shiftKey e)); reflexivity.
Qed.

(** The nested test of lines 108-126 is the flat disjunction. *)
Lemma nested_branching_is_flat (p : UseLinkArgs) (e : PressEvent) :
  (if useLink_isExternal p then true
   else shouldOpenInNewTab e
        || startsWith (useLink_href p) "http"
        || startsWith (useLink_href p) "mailto")
  = flatShouldOpenExternally p e.
Proof.
  unfold flatShouldOpenExternally, Spec.shouldOpenExternally.
  rewrite shouldOpenInNewTab_modifierClick.
  destruct (useLink_isExternal p); reflexivity.
Qed.

Lemma dispatchAction_run (p : UseLinkArgs) :
  dispatchAction p =
  match Spec.actionOfString (actionOrDefault p) with
  | Some a => ([Spec.navEffect a (matchPath (useLink_href p))], Normal tt)
  | None => ([], Throw "Unsupported navigator action.")
  end.
Proof.
  unfold dispatchAction, Spec.actionOfString.
  destruct (actionOrDefault p =? "push"); [reflexivity|].
  destruct (actionOrDefault p =? "replace"); [reflexivity|].
  destruct (actionOrDefault p =? "navigate"); reflexivity.
Qed.

(** Every run of the handler after the callback, in terms of the
    specification's outcomes. *)
Lemma afterCallback_run (p : UseLinkArgs) (e : PressEvent) (v : JsValue) :
  afterCallback p e v =
  if strict_eq_false v then (Spec.outcomeEffects Spec.Cancelled, Normal tt)
  else if requiresWarning p then
    (Spec.outcomeEffects (Spec.Warn (displayText p) (useLink_href p)),
     Normal tt)
  else if flatShouldOpenExternally p e then
    (Spec.outcomeEffects (Spec.OpenExternal (useLink_href p)), Normal tt)
  else
    match Spec.actionOfString (actionOrDefault p) with
    | Some a =>
        (Spec.outcomeEffects (Spec.NavigateTo a (useLink_href p)), Normal tt)
    | None =>
        ([PreventDefault; CloseModal], Throw "Unsupported navigator action.")
    end.
Proof.
  unfold afterCallback.
  destruct (strict_eq_false v); [reflexivity|].
  destruct (requiresWarning p); [reflexivity|].
  rewrite <- nested_branching_is_flat.
  destruct (useLink_isExternal p); [reflexivity|].
  destruct (shouldOpenInNewTab e || startsWith (useLink_href p) "http"
            || startsWith (useLink_href p) "mailto"); [reflexivity|].
  rewrite dispatchAction_run.
  destruct (Spec.actionOfString (actionOrDefault p)); reflexivity.
Qed.

Lemma onPress_after_callback (p : UseLinkArgs) (e : PressEvent) t v :
  callOuterOnPress p e = (t, Normal v) ->
  onPress p e =
  (t ++ trace (afterCallback p e v), completion (afterCallback p e v)).
Proof. intros H. unfold onPress. now apply bind_normal. Qed.

Lemma onPress_callback_throws (p : UseLinkArgs) (e : PressEvent) t msg :
  callOuterOnPress p e = (t, Throw msg) ->
  onPress p e = (t, Throw msg).
Proof. intros H. unfold onPress. now apply bind_throw. Qed.

Lemma onPress_without_callback (p : UseLinkArgs) (e : PressEvent) :
  onPress (withoutCallback p) e = afterCallback p e JUndefined.
Proof.
  unfold onPress, callOuterOnPress; simpl.
  unfold bind, ret.
  change (afterCallback (withoutCallback p) e JUndefined)
    with (afterCallback p e JUndefined).
  destruct (afterCallback p e JUndefined); reflexivity.
Qed.


End HandlerFacts.

Section ResolverFacts.

Context {C : Collaborators}.

(** The handler's trace is the callback's followed by the handler's own. *)
Lemma onPress_trace_split (p : UseLinkArgs) (e : PressEvent) :
  trace (onPress p e) = trace (callOuterOnPress p e) ++ resolverTrace p e.
Proof.
  unfold resolverTrace.
  destruct (callOuterOnPress p e) as [t [v|msg]] eqn:Hc.
  - rewrite (onPress_after_callback _ _ _ _ Hc). reflexivity.
  - rewrite (onPress_callback_throws _ _ _ _ Hc). simpl.
    now rewrite app_nil_r.
Qed.

Lemma resolverTrace_returned (p : UseLinkArgs) (e : PressEvent) t v :
  callOuterOnPress p e = (t, Normal v) ->
  resolverTrace p e = trace (afterCallback p e v).
Proof. intros H. unfold resolverTrace. now rewrite H. Qed.

(** Without a warning required, the handler never opens the modal. *)
Lemma no_warning_no_modal (p : UseLinkArgs) (e : PressEvent) (v : JsValue) :
  requiresWarning p = false ->
  existsb isOpenModal (trace (afterCallback p e v)) = false.
Proof.
  intros Hw. rewrite afterCallback_run, Hw.
  destruct (strict_eq_false v); [reflexivity|].
  destruct (flatShouldOpenExternally p e); [reflexivity|].
  destruct (Spec.actionOfString (actionOrDefault p)) as [[]|]; reflexivity.
Qed.

Lemma actionOfString_None (a : string) :
  Spec.actionOfString a = None <->
  a <> "push" /\ a <> "replace" /\ a <> "navigate".
Proof.
  unfold Spec.actionOfString.
  destruct (String.eqb_spec a "push"); [split; [discriminate|tauto]|].
  destruct (String.eqb_spec a "replace"); [split; [discriminate|tauto]|].
  destruct (String.eqb_spec a "navigate"); [split; [discriminate|tauto]|].
  tauto.
Qed.

End ResolverFacts.

(** ** The press resolver *)

Section PressResolver.

Context {C : Collaborators}.

(** C1.  For a press whose callback returned something other than [false]
    and for which no warning is required, the handler runs exactly as
    OpenExternal(href) if and only if the flat disjunction "external, or
    modifier click on the web, or href starts with http, or href starts with
    mailto" holds; an external open is among its calls exactly when the
    disjunction holds; and when it fails the handler runs as
    Navigate(action, href) for the configured action. *)
Theorem open_external_iff_flat_disjunction
    (p : UseLinkArgs) (e : PressEvent) (t : list Effect) (v : JsValue) :
  callOuterOnPress p e = (t, Normal v) ->
  strict_eq_false v = false ->
  requiresWarning p = false ->
  (onPress p e =
     (t ++ Spec.outcomeEffects (Spec.OpenExternal (useLink_href p)), Normal tt)
   <-> flatShouldOpenExternally p e = true)
  /\ existsb isOpenURL (resolverTrace p e) = flatShouldOpenExternally p e
  /\ (flatShouldOpenExternally p e = false ->
      forall a, Spec.actionOfString (actionOrDefault p) = Some a ->
      onPress p e =
        (t ++ Spec.outcomeEffects (Spec.NavigateTo a (useLink_href p)),
         Normal tt)).
Proof.
  intros Hc Hv Hw.
  rewrite (resolverTrace_returned _ _ _ _ Hc).
  rewrite (onPress_after_callback _ _ _ _ Hc).
  rewrite afterCallback_run, Hv, Hw.
  destruct (flatShouldOpenExternally p e) eqn:Hflat.
  - repeat split; try reflexivity; discriminate.
  - destruct (Spec.actionOfString (actionOrDefault p)) as [a|] eqn:Ha.
    + repeat split.
      * intros H. injection H as H. apply app_inv_head in H.
        destruct a; discriminate.
      * discriminate.
      * destruct a; reflexivity.
      * intros _ a' Ha'. now injection Ha' as <-.
    + repeat split.
      * intros H. discriminate.
      * discriminate.
      * discriminate.
Qed.


(** C3.  For a press whose callback did not return [false], the handler
    runs as Warn (it opens the "link-warning" modal with the display text
    and the resolved href) if and only if warnings were opted into, the
    display text is not empty, the link is external and
    [linkRequiresWarning] flags the pair; the modal is opened in no other
    case; and with warnings off an external link runs as OpenExternal. *)
Theorem warn_iff_four_conditions
    (p : UseLinkArgs) (e : PressEvent) (t : list Effect) (v : JsValue) :
  callOuterOnPress p e = (t, Normal v) ->
  strict_eq_false v = false ->
  (onPress p e =
     (t ++ Spec.outcomeEffects
             (Spec.Warn (displayText p) (useLink_href p)), Normal tt)
   <-> (truthy_bool (warnOnMismatchingTextChild p) = true
        /\ displayText p <> ""
        /\ useLink_isExternal p = true
        /\ linkRequiresWarning (useLink_href p) (displayText p) = true))
  /\ existsb isOpenModal (resolverTrace p e) = requiresWarning p
  /\ (truthy_bool (warnOnMismatchingTextChild p) = false ->
      useLink_isExternal p = true ->
      onPress p e =
        (t ++ Spec.outcomeEffects (Spec.OpenExternal (useLink_href p)),
         Normal tt)).
Proof.
  intros Hc Hv.
  rewrite (resolverTrace_returned _ _ _ _ Hc).
  rewrite (onPress_after_callback _ _ _ _ Hc).
  assert (Hreq : requiresWarning p = true <->
            (truthy_bool (warnOnMismatchingTextChild p) = true
             /\ displayText p <> ""
             /\ useLink_isExternal p = true
             /\ linkRequiresWarning (useLink_href p) (displayText p) = true)).
  { unfold requiresWarning. rewrite !andb_true_iff.
    assert (Hs : truthy_string (displayText p) = true <-> displayText p <> "").
    { destruct (displayText p); simpl; split; congruence. }
    tauto. }
  split; [|split].
  - rewrite <- Hreq. rewrite afterCallback_run, Hv.
    destruct (requiresWarning p); [split; reflexivity|].
    split; [|discriminate].
    intros H. exfalso.
    destruct (flatShouldOpenExternally p e).
    + injection H as H. apply app_inv_head in H. discriminate.
    + destruct (Spec.actionOfString (actionOrDefault p)).
      * injection H as H. apply app_inv_head in H. discriminate.
      * discriminate.
  - destruct (requiresWarning p) eqn:Hw.
    + rewrite afterCallback_run, Hv, Hw. reflexivity.
    + now apply no_warning_no_modal.
  - intros Hoff Hext.
    assert (Hw : requiresWarning p = false).
    { unfold requiresWarning. now rewrite Hoff. }
    assert (Hflat : flatShouldOpenExternally p e = true).
    { unfold flatShouldOpenExternally, Spec.shouldOpenExternally.
      now rewrite Hext. }
    rewrite afterCallback_run, Hv, Hw, Hflat. reflexivity.
Qed.

(** C4, amended.  For an external href and a callback that did not return
    [false]: when no mismatch warning is required the handler runs as
    OpenExternal, whatever the modifier keys; when one is required it runs
    as Warn; in both cases it makes no navigation call. *)
Theorem external_press_opens_unless_warned
    (p : UseLinkArgs) (e : PressEvent) (t : list Effect) (v : JsValue) :
  callOuterOnPress p e = (t, Normal v) ->
  strict_eq_false v = false ->
  useLink_isExternal p = true ->
  (requiresWarning p = false ->
   onPress p e =
     (t ++ Spec.outcomeEffects (Spec.OpenExternal (useLink_href p)),
      Normal tt))
  /\ (requiresWarning p = true ->
      onPress p e =
        (t ++ Spec.outcomeEffects
                (Spec.Warn (displayText p) (useLink_href p)), Normal tt))
  /\ existsb isNavigation (resolverTrace p e) = false.
Proof.
  intros Hc Hv Hext.
  rewrite (resolverTrace_returned _ _ _ _ Hc).
  rewrite (onPress_after_callback _ _ _ _ Hc).
  assert (Hflat : flatShouldOpenExternally p e = true).
  { unfold flatShouldOpenExternally, Spec.shouldOpenExternally.
    now rewrite Hext. }
  rewrite afterCallback_run, Hv, Hflat.
  destruct (requiresWarning p); repeat split; try reflexivity; discriminate.
Qed.

(** C5.  For a press that is not cancelled, not warned and not opened
    externally, with the default action (or an explicit 'push'), the handler
    suppresses the default, closes the modal, and only then dispatches
    [StackActions.push] with what [router.matchPath(href)] returns: it runs
    as Navigate(Push, href). *)
Theorem internal_press_closes_modal_then_pushes
    (p : UseLinkArgs) (e : PressEvent) (t : list Effect) (v : JsValue) :
  callOuterOnPress p e = (t, Normal v) ->
  strict_eq_false v = false ->
  requiresWarning p = false ->
  flatShouldOpenExternally p e = false ->
  actionOrDefault p = "push" ->
  onPress p e =
    (t ++ [PreventDefault; CloseModal;
           DispatchPush (matchPath (useLink_href p))], Normal tt)
  /\ onPress p e =
       (t ++ Spec.outcomeEffects (Spec.NavigateTo Spec.Push (useLink_href p)),
        Normal tt).
Proof.
  intros Hc Hv Hw Hflat Ha.
  rewrite (onPress_after_callback _ _ _ _ Hc).
  rewrite afterCallback_run, Hv, Hw, Hflat, Ha.
  split; reflexivity.
Qed.

(** C6.  When the handler reaches the dispatch (not cancelled, not warned,
    not opened externally) with an action other than 'push', 'replace' and
    'navigate', it throws "Unsupported navigator action." there: the run
    ends in the error, after [preventDefault] and [closeModal], with no
    navigation call and nothing after the throw. *)
Theorem unsupported_action_throws_at_dispatch
    (p : UseLinkArgs) (e : PressEvent) (t : list Effect) (v : JsValue) :
  callOuterOnPress p e = (t, Normal v) ->
  strict_eq_false v = false ->
  requiresWarning p = false ->
  flatShouldOpenExternally p e = false ->
  actionOrDefault p <> "push" ->
  actionOrDefault p <> "replace" ->
  actionOrDefault p <> "navigate" ->
  onPress p e =
    (t ++ [PreventDefault; CloseModal], Throw "Unsupported navigator action.")
  /\ existsb isNavigation (resolverTrace p e) = false.
Proof.
  intros Hc Hv Hw Hflat H1 H2 H3.
  assert (Ha : Spec.actionOfString (actionOrDefault p) = None)
    by now apply actionOfString_None.
  rewrite (resolverTrace_returned _ _ _ _ Hc).
  rewrite (onPress_after_callback _ _ _ _ Hc).
  rewrite afterCallback_run, Hv, Hw, Hflat, Ha.
  split; reflexivity.
Qed.

(** C7.  Once the callback has returned, the handler itself calls
    [preventDefault] exactly once when the returned value is not [false]
    (in the warning branch as in the other one, and also when the dispatch
    throws), and not at all when it is [false]. *)
Theorem preventDefault_once_unless_cancelled
    (p : UseLinkArgs) (e : PressEvent) (t : list Effect) (v : JsValue) :
  callOuterOnPress p e = (t, Normal v) ->
  trace (onPress p e) = t ++ resolverTrace p e
  /\ countPreventDefault (resolverTrace p e)
     = (if strict_eq_false v then 0 else 1)
  /\ (strict_eq_false v = false ->
      exists rest, resolverTrace p e = PreventDefault :: rest
                   /\ countPreventDefault rest = 0).
Proof.
  intros Hc.
  rewrite onPress_trace_split, Hc.
  rewrite (resolverTrace_returned _ _ _ _ Hc).
  rewrite afterCallback_run.
  split; [reflexivity|].
  destruct (strict_eq_false v); [split; [reflexivity|discriminate]|].
  destruct (requiresWarning p).
  { split; [reflexivity|]. intros _. eexists; split; reflexivity. }
  destruct (flatShouldOpenExternally p e).
  { split; [reflexivity|]. intros _. eexists; split; reflexivity. }
  destruct (Spec.actionOfString (actionOrDefault p)) as [[]|];
    (split; [reflexivity|]; intros _; eexists; split; reflexivity).
Qed.

(** C9.  A press on a [Link], and a press on an [InlineLink] whose children
    are not a plain string, never requires the warning and never opens the
    modal: [Link] passes no [warnOnMismatchingTextChild], and both pass an
    empty display text for children that are not a string. *)
Theorem link_never_warns
    (props : LinkProps) (iprops : InlineLinkProps) (e : PressEvent) :
  isStringChild (inline_children iprops) = false ->
  (warnOnMismatchingTextChild (Link_useLinkArgs props) = None
   /\ requiresWarning (Link_useLinkArgs props) = false
   /\ existsb isOpenModal (resolverTrace (Link_useLinkArgs props) e) = false)
  /\ (displayText (InlineLink_useLinkArgs iprops) = ""
      /\ requiresWarning (InlineLink_useLinkArgs iprops) = false
      /\ existsb isOpenModal
           (resolverTrace (InlineLink_useLinkArgs iprops) e) = false).
Proof.
  intros Hchild.
  assert (HL : requiresWarning (Link_useLinkArgs props) = false)
    by reflexivity.
  assert (HD : displayText (InlineLink_useLinkArgs iprops) = "").
  { simpl. destruct (inline_children iprops); try reflexivity.
    discriminate. }
  assert (HI : requiresWarning (InlineLink_useLinkArgs iprops) = false).
  { unfold requiresWarning. rewrite HD. simpl.
    now rewrite andb_false_r. }
  repeat split; try assumption.
  - unfold resolverTrace.
    destruct (callOuterOnPress (Link_useLinkArgs props) e) as [t [v|m]];
      [now apply no_warning_no_modal | reflexivity].
  - unfold resolverTrace.
    destruct (callOuterOnPress (InlineLink_useLinkArgs iprops) e)
      as [t [v|m]]; [now apply no_warning_no_modal | reflexivity].
Qed.

(** C10, amended.  When the [download] prop of a [Link] or an [InlineLink]
    is a non-empty string, no press handler is attached, and a press runs
    nothing: no callback, no [preventDefault], no modal, no external open,
    no navigation. *)
Theorem download_detaches_handler
    (props : LinkProps) (iprops : InlineLinkProps) (e : PressEvent) :
  truthy_opt_string (link_download props) = true ->
  truthy_opt_string (inline_download iprops) = true ->
  (r_onPress (Link props) = None /\ press (Link props) e = ([], Normal tt))
  /\ (r_onPress (InlineLink iprops) = None
      /\ press (InlineLink iprops) e = ([], Normal tt)).
Proof.
  intros HL HI. unfold press, Link, InlineLink; simpl.
  rewrite HL, HI. repeat split.
Qed.

End PressResolver.

(** ** The handler at concrete presses *)

Example native_meta_press_navigates :
  @onPress nativeApp profileArgs metaPress
  = ([PreventDefault; CloseModal;
      DispatchPush ("Profile", [("name", "alice")])], Normal tt).
Proof. reflexivity. Qed.

Example native_gesture_navigates :
  @onPress nativeApp profileArgs nativePress
  = ([PreventDefault; CloseModal;
      DispatchPush ("Profile", [("name", "alice")])], Normal tt).
Proof. reflexivity. Qed.

Example replace_action_dispatches_replace :
  @onPress webApp (actionArgs "replace") plainPress
  = ([PreventDefault; CloseModal;
      DispatchReplace ("Profile", [("name", "alice")])], Normal tt).
Proof. reflexivity. Qed.

Example navigate_action_calls_navigate :
  @onPress webApp (actionArgs "navigate") plainPress
  = ([PreventDefault; CloseModal;
      NavigationNavigate ("Profile", [("name", "alice")])], Normal tt).
Proof. reflexivity. Qed.

Example callback_returning_zero_continues :
  @onPress webApp (callbackArgs (JNum 0)) plainPress
  = ([PreventDefault; PreventDefault; CloseModal;
      DispatchPush ("Profile", [("name", "alice")])], Normal tt).
Proof. reflexivity. Qed.

Example throwing_callback_ends_the_press :
  @onPress webApp
    {| to := ToString "/profile/alice"; displayText := "alice";
       action := None; warnOnMismatchingTextChild := None;
       outerOnPress := Some throwing |} plainPress
  = ([CallerEffect "log"], Throw "boom").
Proof. reflexivity. Qed.

Example inlineLink_string_child_warns :
  press (@InlineLink webApp
           (sampleInlineLink (NodeString "example.com") None)) plainPress
  = ([PreventDefault;
      OpenModal "link-warning" "example.com" "https://other.com"],
     Normal tt).
Proof. reflexivity. Qed.

Example external_with_unsupported_action_still_opens :
  @onPress webApp
    {| to := ToString "https://other.com"; displayText := "";
       action := Some "pop"; warnOnMismatchingTextChild := None;
       outerOnPress := None |} plainPress
  = ([PreventDefault; LinkingOpenURL "https://other.com"], Normal tt).
Proof. reflexivity. Qed.

(** ** The claims at concrete presses *)

Lemma open_external_iff_flat_disjunction_witness :
  callOuterOnPress profileArgs metaPress = ([], Normal JUndefined)
  /\ @requiresWarning webApp profileArgs = false
  /\ @useLink_isExternal webApp profileArgs = false
  /\ @onPress webApp profileArgs metaPress
     = ([PreventDefault; LinkingOpenURL "/profile/alice"], Normal tt).
Proof.
  split; [reflexivity|]. split; [reflexivity|]. split; [reflexivity|].
  apply (proj1 (@open_external_iff_flat_disjunction webApp profileArgs
                  metaPress [] JUndefined eq_refl eq_refl eq_refl)).
  reflexivity.
Defined.


Lemma warn_iff_four_conditions_witness :
  callOuterOnPress (mismatchArgs (Some true)) plainPress
    = ([], Normal JUndefined)
  /\ @onPress webApp (mismatchArgs (Some true)) plainPress
     = ([PreventDefault;
         OpenModal "link-warning" "example.com" "https://other.com"],
        Normal tt).
Proof.
  split; [reflexivity|].
  apply (proj1 (@warn_iff_four_conditions webApp (mismatchArgs (Some true))
                  plainPress [] JUndefined eq_refl eq_refl)).
  repeat split; try reflexivity. discriminate.
Defined.

Lemma external_press_opens_unless_warned_witness :
  callOuterOnPress (mismatchArgs None) plainPress
    = ([], Normal JUndefined)
  /\ @useLink_isExternal webApp (mismatchArgs None) = true
  /\ @requiresWarning webApp (mismatchArgs None) = false
  /\ @onPress webApp (mismatchArgs None) plainPress
     = ([PreventDefault; LinkingOpenURL "https://other.com"], Normal tt).
Proof.
  split; [reflexivity|]. split; [reflexivity|]. split; [reflexivity|].
  apply (proj1 (@external_press_opens_unless_warned webApp (mismatchArgs None)
                  plainPress [] JUndefined eq_refl eq_refl eq_refl)).
  reflexivity.
Defined.

Lemma internal_press_closes_modal_then_pushes_witness :
  callOuterOnPress profileArgs plainPress = ([], Normal JUndefined)
  /\ @requiresWarning webApp profileArgs = false
  /\ @flatShouldOpenExternally webApp profileArgs plainPress = false
  /\ actionOrDefault profileArgs = "push"
  /\ @onPress webApp profileArgs plainPress
     = ([PreventDefault; CloseModal;
         DispatchPush ("Profile", [("name", "alice")])], Normal tt).
Proof.
  split; [reflexivity|]. split; [reflexivity|]. split; [reflexivity|].
  split; [reflexivity|].
  apply (proj1 (@internal_press_closes_modal_then_pushes webApp profileArgs
                  plainPress [] JUndefined
                  eq_refl eq_refl eq_refl eq_refl eq_refl)).
Defined.

Lemma unsupported_action_throws_at_dispatch_witness :
  callOuterOnPress badActionArgs plainPress = ([], Normal JUndefined)
  /\ @requiresWarning webApp badActionArgs = false
  /\ @flatShouldOpenExternally webApp badActionArgs plainPress = false
  /\ actionOrDefault badActionArgs = "pop"
  /\ @onPress webApp badActionArgs plainPress
     = ([PreventDefault; CloseModal], Throw "Unsupported navigator action.").
Proof.
  split; [reflexivity|]. split; [reflexivity|]. split; [reflexivity|].
  split; [reflexivity|].
  apply (@unsupported_action_throws_at_dispatch webApp badActionArgs
           plainPress [] JUndefined eq_refl eq_refl eq_refl eq_refl);
    simpl; discriminate.
Defined.

Lemma preventDefault_once_unless_cancelled_witness :
  callOuterOnPress (callbackArgs (JNum 0)) plainPress
    = ([PreventDefault], Normal (JNum 0))
  /\ countPreventDefault
       (@resolverTrace webApp (callbackArgs (JNum 0)) plainPress) = 1.
Proof.
  split; [reflexivity|].
  apply (@preventDefault_once_unless_cancelled webApp (callbackArgs (JNum 0))
           plainPress [PreventDefault] (JNum 0) eq_refl).
Defined.

Lemma link_never_warns_witness :
  isStringChild (NodeElement "Text") = false
  /\ @requiresWarning webApp
       (InlineLink_useLinkArgs (sampleInlineLink (NodeElement "Text") None))
     = false
  /\ existsb isOpenModal
       (@resolverTrace webApp
          (InlineLink_useLinkArgs
             (sampleInlineLink (NodeElement "Text") None)) plainPress)
     = false.
Proof.
  split; [reflexivity|].
  apply (@link_never_warns webApp (sampleLink None)
           (sampleInlineLink (NodeElement "Text") None) plainPress).
  reflexivity.
Defined.

Lemma download_detaches_handler_witness :
  truthy_opt_string (Some "report.pdf") = true
  /\ press (@Link webApp (sampleLink (Some "report.pdf"))) plainPress
     = ([], Normal tt).
Proof.
  split; [reflexivity|].
  apply (@download_detaches_handler webApp (sampleLink (Some "report.pdf"))
           (sampleInlineLink (NodeString "example.com") (Some "report.pdf"))
           plainPress); reflexivity.
Defined.

(** C4 as stated fails: an external href, no modifier key, no callback, and
    the press opens the warning modal instead of the URL. *)
Lemma external_press_can_warn :
  @useLink_href webApp (mismatchArgs (Some true)) = "https://other.com"
  /\ @useLink_isExternal webApp (mismatchArgs (Some true)) = true
  /\ @shouldOpenInNewTab webApp plainPress = false
  /\ outerOnPress (mismatchArgs (Some true)) = None
  /\ @onPress webApp (mismatchArgs (Some true)) plainPress
     = ([PreventDefault;
         OpenModal "link-warning" "example.com" "https://other.com"],
        Normal tt)
  /\ @onPress webApp (mismatchArgs (Some true)) plainPress
     <> (@Spec.outcomeEffects webApp (Spec.OpenExternal "https://other.com"),
         Normal tt)
  /\ existsb isOpenURL
       (trace (@onPress webApp (mismatchArgs (Some true)) plainPress))
     = false.
Proof.
  repeat split; try reflexivity. discriminate.
Qed.

(** C10 as stated fails: with [download] set to the empty string the handler
    stays attached and a press navigates. *)
Lemma empty_download_keeps_handler :
  link_download (sampleLink (Some "")) = Some ""
  /\ r_download (@Link webApp (sampleLink (Some ""))) = Some ""
  /\ r_onPress (@Link webApp (sampleLink (Some ""))) <> None
  /\ press (@Link webApp (sampleLink (Some ""))) plainPress
     = ([PreventDefault; CloseModal;
         DispatchPush ("Profile", [("name", "alice")])], Normal tt)
  /\ press (@InlineLink webApp
              (sampleInlineLink (NodeString "example.com") (Some "")))
       plainPress
     = ([PreventDefault;
         OpenModal "link-warning" "example.com" "https://other.com"],
        Normal tt).
Proof.
  repeat split; try reflexivity. discriminate.
Qed.

(** * Further properties of the handler and of the components *)

Section HandlerRuns.

Context {C : Collaborators}.

(** Every run of lines 88-145, branch by branch, in the handler's own
    terms. *)
Lemma afterCallback_code_run (p : UseLinkArgs) (e : PressEvent) (v : JsValue) :
  afterCallback p e v =
  if strict_eq_false v then ([], Normal tt)
  else if requiresWarning p then
    ([PreventDefault;
      OpenModal "link-warning" (displayText p) (useLink_href p)], Normal tt)
  else if opensExternally p e then
    ([PreventDefault; LinkingOpenURL (useLink_href p)], Normal tt)
  else if actionOrDefault p =? "push" then
    ([PreventDefault; CloseModal;
      DispatchPush (matchPath (useLink_href p))], Normal tt)
  else if actionOrDefault p =? "replace" then
    ([PreventDefault; CloseModal;
      DispatchReplace (matchPath (useLink_href p))], Normal tt)
  else if actionOrDefault p =? "navigate" then
    ([PreventDefault; CloseModal;
      NavigationNavigate (matchPath (useLink_href p))], Normal tt)
  else
    ([PreventDefault; CloseModal], Throw "Unsupported navigator action.").
Proof.
  unfold afterCallback, opensExternally, dispatchAction.
  destruct (strict_eq_false v); [reflexivity|].
  destruct (requiresWarning p); [reflexivity|].
  destruct (useLink_isExternal p); [reflexivity|].
  cbn [orb].
  destruct (shouldOpenInNewTab e || startsWith (useLink_href p) "http"
            || startsWith (useLink_href p) "mailto"); [reflexivity|].
  destruct (actionOrDefault p =? "push"); [reflexivity|].
  destruct (actionOrDefault p =? "replace"); [reflexivity|].
  destruct (actionOrDefault p =? "navigate"); reflexivity.
Qed.

Ltac handler_cases p e v :=
  rewrite ?(afterCallback_code_run p e v);
  unfold reachesDispatch, supportedAction;
  destruct (strict_eq_false v) eqn:Hfalse;
  [| destruct (requiresWarning p) eqn:Hwarn;
     [| destruct (opensExternally p e) eqn:Hopen;
        [| destruct (actionOrDefault p =? "push") eqn:Hpush;
           [| destruct (actionOrDefault p =? "replace") eqn:Hreplace;
              [| destruct (actionOrDefault p =? "navigate")
                   eqn:Hnavigate ]]]]];
  cbn [negb andb orb trace completion fst snd].

Lemma afterCallback_throws_iff (p : UseLinkArgs) (e : PressEvent)
    (v : JsValue) (msg : string) :
  completion (afterCallback p e v) = Throw msg <->
  reachesDispatch p e v = true
  /\ supportedAction (actionOrDefault p) = false
  /\ msg = "Unsupported navigator action.".
Proof.
  handler_cases p e v;
    (split; [intros H; try discriminate H | intros (H1 & H2 & H3);
                                            try discriminate]).
  - injection H as <-. repeat split.
  - now subst msg.
Qed.

(** X1.  The handler throws in two cases only: the caller's callback threw,
    and the same error leaves the handler; or the callback returned, the
    press reached the dispatch, and [action] is none of 'push', 'replace',
    'navigate', and the error is "Unsupported navigator action.". *)
Theorem onPress_throws_iff (p : UseLinkArgs) (e : PressEvent) (msg : string) :
  completion (onPress p e) = Throw msg <->
  (exists t, callOuterOnPress p e = (t, Throw msg))
  \/ (exists t v,
        callOuterOnPress p e = (t, Normal v)
        /\ reachesDispatch p e v = true
        /\ supportedAction (actionOrDefault p) = false
        /\ msg = "Unsupported navigator action.").
Proof.
  destruct (callOuterOnPress p e) as [t [v|m]] eqn:Hc.
  - rewrite (onPress_after_callback _ _ _ _ Hc).
    cbn [completion snd]. fold (completion (afterCallback p e v)).
    rewrite afterCallback_throws_iff. split.
    + intros H. right. exists t, v. now split.
    + intros [[t0 H]|(t0 & v0 & H & Hrest)]; [discriminate|].
      now injection H as <- <-.
  - rewrite (onPress_callback_throws _ _ _ _ Hc). cbn [completion snd].
    split.
    + intros H. injection H as <-. left. now exists t.
    + intros [[t0 H]|(t0 & v0 & H & _)]; [|discriminate].
      now injection H as <- <-.
Qed.

(** X2.  A press is carried out by at most one call among [openModal],
    [Linking.openURL] and the three navigation calls, and by exactly one
    when the callback returned something other than [false] and the handler
    did not throw. *)
Theorem at_most_one_outcome_call (p : UseLinkArgs) (e : PressEvent) :
  countOutcomeCalls (resolverTrace p e) <= 1
  /\ (countOutcomeCalls (resolverTrace p e) = 1 <->
      exists t v,
        callOuterOnPress p e = (t, Normal v)
        /\ strict_eq_false v = false
        /\ completion (onPress p e) = Normal tt).
Proof.
  unfold resolverTrace.
  destruct (callOuterOnPress p e) as [t [v|m]] eqn:Hc.
  - rewrite (onPress_after_callback _ _ _ _ Hc).
    cbn [completion snd]. fold (completion (afterCallback p e v)).
    assert (H : countOutcomeCalls (trace (afterCallback p e v)) <= 1
                /\ (countOutcomeCalls (trace (afterCallback p e v)) = 1 <->
                    strict_eq_false v = false
                    /\ completion (afterCallback p e v) = Normal tt)).
    { handler_cases p e v; cbn; (split; [lia|]);
        (split; [intros H; try discriminate H; now split
                | intros [H1 H2]; try discriminate; reflexivity]). }
    destruct H as [Hle Hiff]. split; [exact Hle|].
    rewrite Hiff. split.
    + intros [H1 H2]. now exists t, v.
    + intros (t0 & v0 & H & H1 & H2). now injection H as <- <-.
  - split; [cbn; lia|]. split; [discriminate|].
    intros (t0 & v0 & H & _). discriminate.
Qed.

(** X3.  [closeModal] is called exactly when the press reaches the dispatch;
    a run that calls it neither opens the warning modal nor opens a URL; and
    every navigation call comes right after it. *)
Theorem closeModal_only_before_dispatch
    (p : UseLinkArgs) (e : PressEvent) (t : list Effect) (v : JsValue) :
  callOuterOnPress p e = (t, Normal v) ->
  existsb isCloseModal (resolverTrace p e) = reachesDispatch p e v
  /\ (existsb isCloseModal (resolverTrace p e) = true ->
      existsb isOpenModal (resolverTrace p e) = false
      /\ existsb isOpenURL (resolverTrace p e) = false)
  /\ (forall pre x post,
        resolverTrace p e = pre ++ x :: post ->
        isNavigation x = true ->
        exists pre', pre = pre' ++ [CloseModal]).
Proof.
  intros Hc. rewrite (resolverTrace_returned _ _ _ _ Hc).
  assert (Hnav : forall (y : Effect) pre x post,
            isNavigation y = true ->
            [PreventDefault; CloseModal; y] = pre ++ x :: post ->
            isNavigation x = true ->
            exists pre', pre = pre' ++ [CloseModal]).
  { intros y pre x post Hy H Hx.
    destruct pre as [|a [|b [|c pre]]]; cbn in H.
    - injection H as <- _. discriminate.
    - injection H as _ <- _. discriminate.
    - injection H as <- <- _ _. now exists [PreventDefault].
    - injection H as _ _ _ H. destruct pre; discriminate. }
  assert (Hnone : forall (l : list Effect) pre x post,
            existsb isNavigation l = false ->
            l = pre ++ x :: post ->
            isNavigation x = true -> exists pre', pre = pre' ++ [CloseModal]).
  { intros l pre x post Hl -> Hx. rewrite existsb_app in Hl. cbn in Hl.
    rewrite Hx, orb_true_r in Hl. discriminate. }
  handler_cases p e v; cbn;
    (split; [reflexivity|]);
    (split; [intros H; try discriminate H; now split|]);
    intros pre x post;
    first [ now apply Hnav | now apply Hnone ].
Qed.

(** X4.  Whatever the press and the callback, the handler's own calls are
    [preventDefault], [closeModal], [openModal] of 'link-warning' with the
    display text and the hook's href, [Linking.openURL] of that href, and a
    navigation call on [router.matchPath] of that href: it opens and
    navigates to no other target. *)
Theorem handler_calls_carry_resolved_href (p : UseLinkArgs) (e : PressEvent) :
  Forall (handlerCall p) (resolverTrace p e).
Proof.
  unfold resolverTrace.
  destruct (callOuterOnPress p e) as [t [v|m]]; [|constructor].
  handler_cases p e v;
    repeat (constructor; [unfold handlerCall; tauto|]); constructor.
Qed.

(** X5.  Off the web the event does not matter: the handler never reads a
    modifier click from it, and two presses on the same link run the same
    way whatever their button and modifier keys. *)
Theorem native_press_ignores_modifiers
    (p : UseLinkArgs) (e e' : PressEvent) (v : JsValue) :
  isWeb = false ->
  shouldOpenInNewTab e = false
  /\ afterCallback p e v = afterCallback p e' v
  /\ onPress (withoutCallback p) e = onPress (withoutCallback p) e'.
Proof.
  intros Hweb.
  assert (Hno : forall ev, shouldOpenInNewTab ev = false).
  { intros ev. unfold shouldOpenInNewTab, isMetaKey, isMiddleClick.
    now rewrite Hweb. }
  assert (Hsame : forall w, afterCallback p e w = afterCallback p e' w).
  { intros w. unfold afterCallback. now rewrite (Hno e), (Hno e'). }
  split; [apply Hno|]. split; [apply Hsame|].
  now rewrite !onPress_without_callback.
Qed.

(** X6.  The handler makes a navigation call exactly when the callback did
    not return [false], no warning is required, the href is not external,
    no modifier click is detected, the href starts with neither 'http' nor
    'mailto', and [action] is 'push', 'replace' or 'navigate'. *)
Theorem navigation_call_iff
    (p : UseLinkArgs) (e : PressEvent) (t : list Effect) (v : JsValue) :
  callOuterOnPress p e = (t, Normal v) ->
  existsb isNavigation (resolverTrace p e) = true <->
  strict_eq_false v = false
  /\ requiresWarning p = false
  /\ useLink_isExternal p = false
  /\ shouldOpenInNewTab e = false
  /\ startsWith (useLink_href p) "http" = false
  /\ startsWith (useLink_href p) "mailto" = false
  /\ supportedAction (actionOrDefault p) = true.
Proof.
  intros Hc. rewrite (resolverTrace_returned _ _ _ _ Hc).
  assert (Hext : opensExternally p e = false <->
            useLink_isExternal p = false
            /\ shouldOpenInNewTab e = false
            /\ startsWith (useLink_href p) "http" = false
            /\ startsWith (useLink_href p) "mailto" = false).
  { unfold opensExternally. rewrite !orb_false_iff. tauto. }
  assert (Hiff : existsb isNavigation (trace (afterCallback p e v)) = true <->
            strict_eq_false v = false
            /\ requiresWarning p = false
            /\ opensExternally p e = false
            /\ supportedAction (actionOrDefault p) = true).
  { handler_cases p e v; cbn;
      (split; [intros H; try discriminate H; now repeat split
              | intros (H1 & H2 & H3 & H4); try discriminate; reflexivity]). }
  rewrite Hiff, Hext. tauto.
Qed.

End HandlerRuns.

Section ComponentFacts.

Context {C : Collaborators}.

Lemma completion_after_callback (p : UseLinkArgs) (e : PressEvent) t v :
  callOuterOnPress p e = (t, Normal v) ->
  completion (onPress p e) = completion (afterCallback p e v).
Proof.
  intros Hc. now rewrite (onPress_after_callback _ _ _ _ Hc).
Qed.

Lemma supported_action_completes (p : UseLinkArgs) (e : PressEvent)
    (v : JsValue) :
  supportedAction (actionOrDefault p) = true ->
  completion (afterCallback p e v) = Normal tt.
Proof.
  intros Ha. rewrite afterCallback_code_run.
  unfold supportedAction in Ha.
  destruct (strict_eq_false v); [reflexivity|].
  destruct (requiresWarning p); [reflexivity|].
  destruct (opensExternally p e); [reflexivity|].
  destruct (actionOrDefault p =? "push"); [reflexivity|].
  destruct (actionOrDefault p =? "replace"); [reflexivity|].
  destruct (actionOrDefault p =? "navigate"); [reflexivity|discriminate].
Qed.

(** X7.  An [InlineLink] that does not opt into the warning behaves on a
    press exactly as a [Link] with the same children, target, action,
    callback and download, and renders the same href, target and rel. *)
Theorem inlineLink_without_opt_in_behaves_as_link
    (props : LinkProps) (iprops : InlineLinkProps) (e : PressEvent) :
  inline_children iprops = link_children props ->
  inline_to iprops = link_to props ->
  inline_action iprops = link_action props ->
  inline_onPress iprops = link_onPress props ->
  inline_download iprops = link_download props ->
  truthy_bool (inline_warnOnMismatchingTextChild iprops) = false ->
  press (InlineLink iprops) e = press (Link props) e
  /\ r_href (InlineLink iprops) = r_href (Link props)
  /\ r_target (InlineLink iprops) = r_target (Link props)
  /\ r_rel (InlineLink iprops) = r_rel (Link props)
  /\ r_download (InlineLink iprops) = r_download (Link props).
Proof.
  destruct props as [ch target act cb dl].
  destruct iprops as [ich itarget iact warn icb idl].
  cbn [inline_children inline_to inline_action inline_onPress
       inline_download inline_warnOnMismatchingTextChild
       link_children link_to link_action link_onPress link_download].
  intros -> -> -> -> -> Hwarn.
  assert (Hhref : forall w,
            useLink_href
              {| to := target; displayText := stringChildrenOrEmpty ch;
                 action := Some match act with Some a => a | None => "push" end;
                 warnOnMismatchingTextChild := w; outerOnPress := cb |}
            = useLink_href
                {| to := target; displayText := stringChildrenOrEmpty ch;
                   action :=
                     Some match act with Some a => a | None => "push" end;
                   warnOnMismatchingTextChild := None; outerOnPress := cb |})
    by reflexivity.
  assert (Hpress :
            onPress
              {| to := target; displayText := stringChildrenOrEmpty ch;
                 action := Some match act with Some a => a | None => "push" end;
                 warnOnMismatchingTextChild := warn; outerOnPress := cb |} e
            = onPress
                {| to := target; displayText := stringChildrenOrEmpty ch;
                   action :=
                     Some match act with Some a => a | None => "push" end;
                   warnOnMismatchingTextChild := None; outerOnPress := cb |}
                e).
  { unfold onPress. f_equal.
    unfold afterCallback, requiresWarning, dispatchAction,
      useLink_isExternal.
    cbn [warnOnMismatchingTextChild displayText actionOrDefault action].
    rewrite Hwarn, (Hhref warn). reflexivity. }
  unfold press, InlineLink, Link, useLink, InlineLink_useLinkArgs,
    Link_useLinkArgs, useLink_isExternal.
  cbn [r_onPress r_href r_target r_rel r_download res_onPress res_href
       res_isExternal inline_children inline_to inline_action inline_onPress
       inline_download inline_warnOnMismatchingTextChild
       link_children link_to link_action link_onPress link_download].
  rewrite (Hhref warn).
  repeat split.
  destruct (truthy_opt_string dl); [reflexivity|exact Hpress].
Qed.

(** X8.  On the web both components render [target = 'blank'] exactly for
    an external href without a download, and [rel = 'noopener noreferrer']
    exactly for an external href, so a blank target never comes without
    that rel and a link with a download has no target.  Off the web the
    [web({...})] props are not passed at all: no target, no rel and no
    download attribute. *)
Theorem blank_target_has_noopener
    (props : LinkProps) (iprops : InlineLinkProps) :
  ((r_target (Link props) = Some "blank" <->
    isWeb = true
    /\ useLink_isExternal (Link_useLinkArgs props) = true
    /\ truthy_opt_string (link_download props) = false)
   /\ (r_rel (Link props) = Some "noopener noreferrer" <->
       isWeb = true
       /\ useLink_isExternal (Link_useLinkArgs props) = true)
   /\ (r_target (Link props) = Some "blank" ->
       r_rel (Link props) = Some "noopener noreferrer")
   /\ (r_target (Link props) = None \/ r_target (Link props) = Some "blank")
   /\ (r_download (Link props)
       = if isWeb then link_download props else None)
   /\ (isWeb = false -> r_web (Link props) = None))
  /\ ((r_target (InlineLink iprops) = Some "blank" <->
       isWeb = true
       /\ useLink_isExternal (InlineLink_useLinkArgs iprops) = true
       /\ truthy_opt_string (inline_download iprops) = false)
      /\ (r_rel (InlineLink iprops) = Some "noopener noreferrer" <->
          isWeb = true
          /\ useLink_isExternal (InlineLink_useLinkArgs iprops) = true)
      /\ (r_target (InlineLink iprops) = Some "blank" ->
          r_rel (InlineLink iprops) = Some "noopener noreferrer")
      /\ (r_target (InlineLink iprops) = None
          \/ r_target (InlineLink iprops) = Some "blank")
      /\ (r_download (InlineLink iprops)
          = if isWeb then inline_download iprops else None)
      /\ (isWeb = false -> r_web (InlineLink iprops) = None)).
Proof.
  unfold r_target, r_rel, r_download, Link, InlineLink, useLink, web,
    hrefTarget, hrefRel.
  cbn [r_web res_isExternal].
  split.
  - destruct isWeb, (truthy_opt_string (link_download props)),
      (useLink_isExternal (Link_useLinkArgs props));
      cbn [hrefAttrs attr_target attr_rel attr_download];
      repeat split; intros; try tauto; try discriminate;
      try (now destruct H); try (destruct H as (? & ? & ?); discriminate).
  - destruct isWeb, (truthy_opt_string (inline_download iprops)),
      (useLink_isExternal (InlineLink_useLinkArgs iprops));
      cbn [hrefAttrs attr_target attr_rel attr_download];
      repeat split; intros; try tauto; try discriminate;
      try (now destruct H); try (destruct H as (? & ? & ?); discriminate).
Qed.

(** X9.  A [Link] or an [InlineLink] given no [action] falls back on 'push':
    a press on it throws only if the caller's callback throws, and when the
    press reaches the dispatch its navigation call is the push. *)
Theorem components_without_action_push
    (props : LinkProps) (iprops : InlineLinkProps) (e : PressEvent) :
  link_action props = None ->
  inline_action iprops = None ->
  (forall t v,
     callOuterOnPress (Link_useLinkArgs props) e = (t, Normal v) ->
     completion (press (Link props) e) = Normal tt
     /\ forall x, In x (resolverTrace (Link_useLinkArgs props) e) ->
                  isNavigation x = true ->
                  x = DispatchPush
                        (matchPath (useLink_href (Link_useLinkArgs props))))
  /\ (forall t v,
        callOuterOnPress (InlineLink_useLinkArgs iprops) e = (t, Normal v) ->
        completion (press (InlineLink iprops) e) = Normal tt
        /\ forall x,
             In x (resolverTrace (InlineLink_useLinkArgs iprops) e) ->
             isNavigation x = true ->
             x = DispatchPush
                   (matchPath
                      (useLink_href (InlineLink_useLinkArgs iprops)))).
Proof.
  intros HL HI.
  assert (Hgen : forall p t v,
            actionOrDefault p = "push" ->
            callOuterOnPress p e = (t, Normal v) ->
            completion (onPress p e) = Normal tt
            /\ forall x, In x (resolverTrace p e) ->
                         isNavigation x = true ->
                         x = DispatchPush (matchPath (useLink_href p))).
  { intros p t v Ha Hc. split.
    - rewrite (completion_after_callback _ _ _ _ Hc).
      apply supported_action_completes. now rewrite Ha.
    - rewrite (resolverTrace_returned _ _ _ _ Hc).
      rewrite afterCallback_code_run, Ha. cbn [String.eqb].
      destruct (strict_eq_false v); [intros x []|].
      destruct (requiresWarning p);
        [intros x [<-|[<-|[]]]; discriminate|].
      destruct (opensExternally p e);
        [intros x [<-|[<-|[]]]; discriminate|].
      change ("push" =? "push") with true. cbn iota.
      intros x [<-|[<-|[<-|[]]]]; try discriminate. reflexivity. }
  split.
  - intros t v Hc.
    assert (Ha : actionOrDefault (Link_useLinkArgs props) = "push").
    { unfold actionOrDefault, Link_useLinkArgs; cbn. now rewrite HL. }
    destruct (Hgen _ t v Ha Hc) as [H1 H2]. split; [|exact H2].
    unfold press, Link; cbn [r_onPress useLink res_onPress].
    destruct (truthy_opt_string (link_download props));
      [reflexivity|exact H1].
  - intros t v Hc.
    assert (Ha : actionOrDefault (InlineLink_useLinkArgs iprops) = "push").
    { unfold actionOrDefault, InlineLink_useLinkArgs; cbn. now rewrite HI. }
    destruct (Hgen _ t v Ha Hc) as [H1 H2]. split; [|exact H2].
    unfold press, InlineLink; cbn [r_onPress useLink res_onPress].
    destruct (truthy_opt_string (inline_download iprops));
      [reflexivity|exact H1].
Qed.

End ComponentFacts.

(** ** The further properties at concrete presses *)

Example native_link_renders_no_href_attrs :
  r_web (@Link nativeApp (pairedLink None)) = None
  /\ r_target (@Link nativeApp (pairedLink None)) = None
  /\ r_rel (@InlineLink nativeApp (pairedInlineLink None)) = None
  /\ r_download (@Link nativeApp (pairedLink (Some "report.pdf"))) = None.
Proof. repeat split. Qed.

Example web_external_link_renders_blank_with_noopener :
  r_target (@Link webApp (pairedLink None)) = Some "blank"
  /\ r_rel (@Link webApp (pairedLink None)) = Some "noopener noreferrer"
  /\ r_target (@Link webApp (pairedLink (Some "report.pdf"))) = None
  /\ r_rel (@Link webApp (pairedLink (Some "report.pdf")))
     = Some "noopener noreferrer"
  /\ r_download (@Link webApp (pairedLink (Some "report.pdf")))
     = Some "report.pdf".
Proof. repeat split. Qed.

Example sample_sanitizer_degrades_unsafe_input :
  SpecModel.sanitizeUrl "JavaScript:alert(1)" = "about:blank"
  /\ SpecModel.sanitizeUrl "data:text/html,x" = "about:blank"
  /\ SpecModel.sanitizeUrl "/search?q=100%" = "about:blank"
  /\ SpecModel.sanitizeUrl "" = "about:blank"
  /\ SpecModel.sanitizeUrl "/search?q=a%20b" = "/search?q=a%20b"
  /\ SpecModel.sanitizeUrl "https://other.com" = "https://other.com".
Proof. repeat split. Qed.

Lemma closeModal_only_before_dispatch_witness :
  callOuterOnPress profileArgs plainPress = ([], Normal JUndefined)
  /\ existsb isCloseModal (@resolverTrace webApp profileArgs plainPress)
     = true.
Proof.
  split; [reflexivity|].
  exact (proj1 (@closeModal_only_before_dispatch webApp profileArgs
                  plainPress [] JUndefined eq_refl)).
Defined.

Lemma native_press_ignores_modifiers_witness :
  @isWeb nativeApp = false
  /\ @afterCallback nativeApp profileArgs metaPress JUndefined
     = @afterCallback nativeApp profileArgs nativePress JUndefined.
Proof.
  split; [reflexivity|].
  apply (@native_press_ignores_modifiers nativeApp profileArgs metaPress
           nativePress JUndefined eq_refl).
Defined.

Lemma navigation_call_iff_witness :
  callOuterOnPress (actionArgs "replace") plainPress
    = ([], Normal JUndefined)
  /\ existsb isNavigation
       (@resolverTrace webApp (actionArgs "replace") plainPress) = true.
Proof.
  split; [reflexivity|].
  apply (@navigation_call_iff webApp (actionArgs "replace") plainPress
           [] JUndefined eq_refl).
  repeat split.
Defined.

Lemma inlineLink_without_opt_in_behaves_as_link_witness :
  truthy_bool
    (inline_warnOnMismatchingTextChild (pairedInlineLink None)) = false
  /\ press (@InlineLink webApp (pairedInlineLink None)) plainPress
     = press (@Link webApp (pairedLink None)) plainPress.
Proof.
  split; [reflexivity|].
  apply (@inlineLink_without_opt_in_behaves_as_link webApp (pairedLink None)
           (pairedInlineLink None) plainPress); reflexivity.
Defined.

Lemma components_without_action_push_witness :
  link_action (sampleLink None) = None
  /\ callOuterOnPress (Link_useLinkArgs (sampleLink None)) plainPress
     = ([], Normal JUndefined)
  /\ completion (press (@Link webApp (sampleLink None)) plainPress)
     = Normal tt.
Proof.
  split; [reflexivity|]. split; [reflexivity|].
  apply (proj1 (@components_without_action_push webApp (sampleLink None)
                  (sampleInlineLink (NodeString "example.com") None)
                  plainPress eq_refl eq_refl) [] JUndefined eq_refl).
Defined.
